(** * deno_result: the Result algebra of [src/mod.ts]

    A shallow embedding of the value layer of the library (the functions
    [success], [failure], [from], [inspect], [invert] and [unwrap]) over a
    small model of the JavaScript values they handle.  The type layer of
    the module is erased before the code runs and has no counterpart
    here, except that the overload signatures tell which arguments a
    caller may leave out. *)

From stdpp Require Import gmap strings list.
From Stdlib Require Import ZArith.

(** ** Run-time values *)

(** A function object is known by its identity; what it does when it is
    called is given separately (see [fn_body] below). *)
Definition fnref := nat.

(** The values a payload can be.  An object is a finite map from property
    names to values, so that two objects are equal exactly when they have
    the same properties with the same values (structural equality).
    Numbers are the integral ones. *)
#[warnings="-register-all"]
Inductive val : Type :=
  | VUndefined
  | VNull
  | VBool (b : bool)
  | VNum (n : Z)
  | VStr (s : string)
  | VFun (f : fnref)
  | VObj (fields : gmap string val).

(** What evaluation can end with besides a value. *)
Inductive exn : Type :=
  | TypeError
  | Thrown (v : val).

Inductive completion (A : Type) : Type :=
  | Normal (a : A)
  | Abrupt (e : exn).
Arguments Normal {A} a.
Arguments Abrupt {A} e.

(** One invocation of a function object by the library. *)
Record call : Type := Call { callee : fnref; argument : val }.

(** A computation yields the calls it made, in order, and how it ended. *)
Definition js (A : Type) : Type := (list call * completion A)%type.

Definition ret {A : Type} (a : A) : js A := ([], Normal a).

Definition throw {A : Type} (e : exn) : js A := ([], Abrupt e).

Definition bind {A B : Type} (m : js A) (k : A -> js B) : js B :=
  match m with
  | (t, Normal a) => let '(t', r) := k a in (t ++ t', r)
  | (t, Abrupt e) => (t, Abrupt e)
  end.

Declare Scope js_scope.
Delimit Scope js_scope with js.
Notation "x <- m ;; k" := (bind m (fun x => k))
  (at level 100, m at next level, right associativity) : js_scope.
Open Scope js_scope.

(** ** The pieces of the language the module uses *)

(** An object literal [{ k1: v1, k2: v2, ... }]: properties are defined
    from left to right, a later one replacing an earlier one of the same
    name. *)
Definition object_literal (props : list (string * val)) : val :=
  VObj (foldl (fun m kv => <[kv.1 := kv.2]> m) ∅ props).

(** A parameter with an initializer, [p = d]: the initializer is used when
    the argument is left out and also when it is [undefined]. *)
Definition default_param (arg : option val) (d : val) : val :=
  match arg with
  | None | Some VUndefined => d
  | Some v => v
  end.

(** An optional parameter without initializer, [p?]: [undefined] when left
    out. *)
Definition optional_param (arg : option val) : val :=
  match arg with
  | None => VUndefined
  | Some v => v
  end.

(** The condition of [c ? a : b]. *)
Definition to_boolean (v : val) : bool :=
  match v with
  | VUndefined | VNull => false
  | VBool b => b
  | VNum n => negb (n =? 0)%Z
  | VStr s => negb (String.eqb s EmptyString)
  | VFun _ | VObj _ => true
  end.

(** Property read [o.k] and [o[k]] for the keys the module reads ([ok],
    [value], [error]): own property of an object, [undefined] when there
    is none (no prototype defines one of these keys), a [TypeError] on
    [undefined] and [null]. *)
Definition get (o : val) (k : string) : js val :=
  match o with
  | VUndefined | VNull => throw TypeError
  | VObj m => ret (default VUndefined (m !! k))
  | _ => ret VUndefined
  end.

Section Calls.
(** What each function object does with its argument. *)
Variable fn_body : fnref -> val -> completion val.

(** A call [f(a)]. *)
Definition call_function (f a : val) : js val :=
  match f with
  | VFun r => ([Call r a], fn_body r a)
  | _ => throw TypeError
  end.

(** An optional call [f?.(a)]: when [f] is [undefined] or [null] the
    result is [undefined] and the argument is not evaluated. *)
Definition optional_call (f : val) (a : js val) : js val :=
  match f with
  | VUndefined | VNull => ret VUndefined
  | _ => x <- a ;; call_function f x
  end.
End Calls.

(** ** [src/mod.ts] *)

(** [enum DataKey { Success = "value", Failure = "error" }] *)
Module DataKey.
Definition Success : string := "value".
Definition Failure : string := "error".
End DataKey.

(** [function success(value: unknown = null)] *)
Definition success (value : option val) : val :=
  let value := default_param value VNull in
  object_literal [("ok", VBool true); (DataKey.Success, value)].

(** [function failure(error: unknown = null)] *)
Definition failure (error : option val) : val :=
  let error := default_param error VNull in
  object_literal [("ok", VBool false); (DataKey.Failure, error)].

(** [function from(test: boolean, data: unknown = null)] *)
Definition from (test : val) (data : option val) : val :=
  let data := default_param data VNull in
  if to_boolean test then success (Some data) else failure (Some data).

(** [function inspect(result)] *)
Definition inspect (result : val) : js val :=
  ok <- get result "ok" ;;
  if to_boolean ok then get result DataKey.Success
  else get result DataKey.Failure.

(** [function invert(result)] *)
Definition invert (result : val) : js val :=
  ok <- get result "ok" ;;
  if to_boolean ok then
    v <- get result DataKey.Success ;; ret (failure (Some v))
  else
    e <- get result DataKey.Failure ;; ret (success (Some e)).

(** [function unwrap(result, callback?)] *)
Definition unwrap (fn_body : fnref -> val -> completion val)
    (result : val) (callback : option val) : js val :=
  let callback := optional_param callback in
  ok <- get result "ok" ;;
  if to_boolean ok then get result DataKey.Success
  else optional_call fn_body callback (get result DataKey.Failure).

(** ** The second variant of the module (the part of the source after the
    first) *)
Module Variant.
(** [function success(value: unknown = null)] *)
Definition success (value : option val) : val :=
  let value := default_param value VNull in
  object_literal [("ok", VBool true); ("value", value)].

(** [function failure(error: unknown = null)] *)
Definition failure (error : option val) : val :=
  let error := default_param error VNull in
  object_literal [("ok", VBool false); ("error", error)].

(** [function from(test: boolean, data: unknown = undefined)] *)
Definition from (test : val) (data : option val) : val :=
  let data := default_param data VUndefined in
  if to_boolean test then success (Some data) else failure (Some data).

(** [function inspect(result)] *)
Definition inspect (result : val) : js val :=
  ok <- get result "ok" ;;
  if to_boolean ok then get result "value" else get result "error".

(** [function invert(result)] *)
Definition invert (result : val) : js val :=
  ok <- get result "ok" ;;
  if to_boolean ok then
    v <- get result "value" ;; ret (failure (Some v))
  else
    e <- get result "error" ;; ret (success (Some e)).

(** [function unwrap(result, cb)] *)
Definition unwrap (fn_body : fnref -> val -> completion val)
    (result cb : val) : js val :=
  ok <- get result "ok" ;;
  if to_boolean ok then get result "value"
  else e <- get result "error" ;; call_function fn_body cb e.
End Variant.

(** ** Results *)

(** The two shapes of a Result: [{ ok: true, value: v }] and
    [{ ok: false, error: e }]. *)
Definition Success (v : val) : val :=
  VObj (<["value" := v]> {["ok" := VBool true]}).

Definition Failure (e : val) : val :=
  VObj (<["error" := e]> {["ok" := VBool false]}).

Inductive Either : val -> Prop :=
  | Either_Success (v : val) : Either (Success v)
  | Either_Failure (e : val) : Either (Failure e).

Definition is_some {A : Type} (o : option A) : bool :=
  match o with Some _ => true | None => false end.

(** The record shape, decided on the fields: exactly two properties, a
    boolean [ok], and the payload under [value] when [ok] is true and
    under [error] when it is false, the other name being absent. *)
Definition is_result (r : val) : bool :=
  match r with
  | VObj m =>
      (size m =? 2) &&
      match m !! "ok" with
      | Some (VBool true) => is_some (m !! "value") && negb (is_some (m !! "error"))
      | Some (VBool false) => is_some (m !! "error") && negb (is_some (m !! "value"))
      | _ => false
      end
  | _ => false
  end.

(** The tag of a record, when it has a boolean one. *)
Definition tag (r : val) : option bool :=
  match r with
  | VObj m => match m !! "ok" with Some (VBool b) => Some b | _ => None end
  | _ => None
  end.

(** Function objects for the examples: number 0 is [e => e.length] as it
    behaves on strings, on [undefined] and on [null]; every other one is
    the identity [e => e]. *)
Definition sample_body (f : fnref) (a : val) : completion val :=
  match f, a with
  | O, VStr s => Normal (VNum (Z.of_nat (String.length s)))
  | O, (VUndefined | VNull) => Abrupt TypeError
  | O, _ => Normal VUndefined
  | _, _ => Normal a
  end.

(** * Properties *)

(** ** The monad *)

Lemma bind_ret_l {A B : Type} (a : A) (k : A -> js B) :
  (x <- ret a ;; k x) = k a.
Proof. unfold bind, ret. by destruct (k a). Qed.

Lemma bind_ret_r {A : Type} (m : js A) : (x <- m ;; ret x) = m.
Proof. destruct m as [t [a|e]]; simpl; by rewrite ?app_nil_r. Qed.

(** ** What the constructors build *)

Lemma success_shape (x : option val) :
  success x = Success (default_param x VNull).
Proof. reflexivity. Qed.

Lemma failure_shape (x : option val) :
  failure x = Failure (default_param x VNull).
Proof. reflexivity. Qed.

Lemma default_param_defined (x d : val) :
  x <> VUndefined -> default_param (Some x) d = x.
Proof. by destruct x. Qed.

Lemma Success_inj (v w : val) : Success v = Success w -> v = w.
Proof.
  intros H.
  assert (Hget : get (Success v) "value" = get (Success w) "value")
    by (by rewrite H).
  by injection Hget.
Qed.

Lemma Failure_inj (v w : val) : Failure v = Failure w -> v = w.
Proof.
  intros H.
  assert (Hget : get (Failure v) "error" = get (Failure w) "error")
    by (by rewrite H).
  by injection Hget.
Qed.

Lemma Success_not_Failure (v w : val) : Success v <> Failure w.
Proof.
  intros H.
  assert (Hget : get (Success v) "ok" = get (Failure w) "ok")
    by (by rewrite H).
  discriminate Hget.
Qed.

(** ** Reading a Result *)

Lemma inspect_Success (v : val) : inspect (Success v) = ret v.
Proof. reflexivity. Qed.

Lemma inspect_Failure (e : val) : inspect (Failure e) = ret e.
Proof. reflexivity. Qed.

Lemma invert_Success (v : val) :
  invert (Success v) = ret (Failure (default_param (Some v) VNull)).
Proof. reflexivity. Qed.

Lemma invert_Failure (e : val) :
  invert (Failure e) = ret (Success (default_param (Some e) VNull)).
Proof. reflexivity. Qed.

Lemma unwrap_Success fn_body (v : val) (callback : option val) :
  unwrap fn_body (Success v) callback = ret v.
Proof. reflexivity. Qed.

Lemma unwrap_Failure fn_body (e : val) (f : fnref) :
  unwrap fn_body (Failure e) (Some (VFun f)) = ([Call f e], fn_body f e).
Proof. reflexivity. Qed.

(** [inspect] returns on every Result. *)
Lemma inspect_total (r : val) : Either r -> exists v, inspect r = ret v.
Proof. intros [v|e]; eauto using inspect_Success, inspect_Failure. Qed.

(** [invert] returns a Result on every Result. *)
Lemma invert_total (r : val) :
  Either r -> exists r', invert r = ret r' /\ Either r'.
Proof.
  intros [v|e]; eexists; (split; [reflexivity|]);
    rewrite ?failure_shape, ?success_shape; constructor.
Qed.

(** ** The record shape *)

Lemma Either_is_result (r : val) : Either r -> is_result r = true.
Proof. by intros [v|e]. Qed.

Lemma two_fields (m : gmap string val) (j k : string) (a b : val) :
  j <> k -> size m = 2 -> m !! j = Some a -> m !! k = Some b ->
  m = <[k := b]> {[j := a]}.
Proof.
  intros Hjk Hsize Hj Hk.
  assert (Hj' : delete k m !! j = Some a) by (by rewrite lookup_delete_ne).
  assert (Hrest : delete j (delete k m) = ∅).
  { apply map_size_empty_iff.
    rewrite (map_size_delete_Some j (delete k m)) by eauto.
    rewrite (map_size_delete_Some k m) by eauto.
    by rewrite Hsize. }
  rewrite <- (insert_delete_id m k b Hk).
  rewrite <- (insert_delete_id (delete k m) j a Hj').
  by rewrite Hrest, insert_empty.
Qed.

(** The shape decided by [is_result] is that of [Either]. *)
Lemma is_result_Either (r : val) : is_result r = true -> Either r.
Proof.
  destruct r as [| | | | | |m]; try discriminate. simpl.
  intros [Hsize Hok]%andb_prop. apply Nat.eqb_eq in Hsize.
  destruct (m !! "ok") as [[| |[|]| | | |]|] eqn:Eok; try discriminate.
  - destruct (m !! "value") as [v|] eqn:Ev; [|discriminate].
    rewrite (two_fields m "ok" "value" (VBool true) v); [constructor|done..].
  - destruct (m !! "error") as [e|] eqn:Ee; [|discriminate].
    rewrite (two_fields m "ok" "error" (VBool false) e); [constructor|done..].
Qed.

(** A Result never has both payload fields. *)
Lemma Either_one_payload (m : gmap string val) :
  Either (VObj m) -> ~ (is_Some (m !! "value") /\ is_Some (m !! "error")).
Proof.
  intros H [[v Hv] [e He]]. inversion H; subst; discriminate.
Qed.

(** ** The constructors *)

(** C1: for every boolean [b] and payload [x], [from(b, x)] is
    [success(x)] when [b] is true and [failure(x)] when [b] is false, and
    [from(true).ok] is [true], [from(false).ok] is [false]. *)
Theorem from_correct (b : bool) (x : val) :
  from (VBool b) (Some x) = (if b then success (Some x) else failure (Some x))
  /\ get (from (VBool true) None) "ok" = ret (VBool true)
  /\ get (from (VBool false) None) "ok" = ret (VBool false).
Proof.
  split; [|by split].
  unfold from. destruct b; simpl to_boolean; cbv iota.
  - rewrite !success_shape. by destruct x.
  - rewrite !failure_shape. by destruct x.
Qed.

(** C8: [success()] is [success(null)] and [failure()] is
    [failure(null)]; the payload of both is [null]. *)
Theorem constructors_default_null :
  success None = success (Some VNull)
  /\ failure None = failure (Some VNull)
  /\ inspect (success None) = ret VNull
  /\ inspect (failure None) = ret VNull.
Proof. by repeat split. Qed.

(** C7: whatever [success], [failure], [from] and [invert] return is a
    record of exactly two fields, the boolean [ok] and one payload field,
    [value] when [ok] is true and [error] when it is false, never both;
    [success(x).ok] is [true] and [failure(x).ok] is [false]. *)
Theorem result_shape :
  (forall x : option val,
      is_result (success x) = true /\ get (success x) "ok" = ret (VBool true))
  /\ (forall x : option val,
      is_result (failure x) = true /\ get (failure x) "ok" = ret (VBool false))
  /\ (forall (test : val) (data : option val),
      is_result (from test data) = true)
  /\ (forall r : val, Either r ->
      exists r', invert r = ret r' /\ is_result r' = true)
  /\ (forall m : gmap string val, is_result (VObj m) = true ->
      ~ (is_Some (m !! "value") /\ is_Some (m !! "error"))).
Proof.
  repeat split.
  - intros test data. unfold from. by destruct (to_boolean test).
  - intros r Hr. destruct (invert_total r Hr) as (r' & Hinv & Hr').
    exists r'. eauto using Either_is_result.
  - intros m Hm. by apply Either_one_payload, is_result_Either.
Qed.

Lemma result_shape_witness :
  Either (Success (VNum 42))
  /\ exists r', invert (Success (VNum 42)) = ret r' /\ is_result r' = true.
Proof.
  split; [constructor|].
  apply (proj1 (proj2 (proj2 (proj2 result_shape)))). constructor.
Defined.

(** [invert] returns nothing but such records, whatever it is given. *)
Lemma invert_output_shape (r r' : val) (t : list call) :
  invert r = (t, Normal r') -> is_result r' = true.
Proof.
  unfold invert. destruct (get r "ok") as [t0 [ok|e]] eqn:Eok; [|discriminate].
  simpl. destruct (to_boolean ok).
  - destruct (get r DataKey.Success) as [t1 [v|e]]; [|discriminate].
    simpl. by intros [= _ <-].
  - destruct (get r DataKey.Failure) as [t1 [v|e]]; [|discriminate].
    simpl. by intros [= _ <-].
Qed.

(** ** Inversion *)

(** C6: [invert(success(x))] is [failure(x)] and [invert(failure(x))] is
    [success(x)]: the role is swapped and the payload is the same. *)
Theorem invert_swap (x : val) :
  invert (success (Some x)) = ret (failure (Some x))
  /\ invert (failure (Some x)) = ret (success (Some x))
  /\ (r <- invert (success (Some x)) ;; inspect r) = inspect (success (Some x))
  /\ (r <- invert (failure (Some x)) ;; inspect r) = inspect (failure (Some x)).
Proof. by destruct x. Qed.

(** Inverting twice gives the Result back when its payload is not
    [undefined]. *)
Lemma invert_invert_defined (r : val) :
  Either r -> inspect r <> ret VUndefined ->
  (r' <- invert r ;; invert r') = ret r.
Proof.
  intros [v|e] Hdef.
  - assert (Hv : v <> VUndefined) by (by intros ->).
    rewrite invert_Success, bind_ret_l, invert_Failure.
    by rewrite !(default_param_defined v VNull Hv).
  - assert (He : e <> VUndefined) by (by intros ->).
    rewrite invert_Failure, bind_ret_l, invert_Success.
    by rewrite !(default_param_defined e VNull He).
Qed.

(** C2: at the Result [{ ok: true, value: undefined }], inverting twice
    yields [{ ok: true, value: null }], which is another Result: on the
    way [failure(undefined)] replaces the payload by the default of its
    parameter. *)
Theorem invert_invert_undefined :
  (r' <- invert (Success VUndefined) ;; invert r') = ret (Success VNull)
  /\ Either (Success VUndefined)
  /\ Success VNull <> Success VUndefined.
Proof.
  split; [reflexivity|]. split; [constructor|].
  by intros H%Success_inj.
Qed.

(** ** Reading the payload *)

(** The payload given to a constructor is the one [inspect] reads, unless
    it is [undefined]. *)
Lemma inspect_fidelity (x : val) :
  x <> VUndefined ->
  inspect (success (Some x)) = ret x /\ inspect (failure (Some x)) = ret x.
Proof. by destruct x. Qed.

(** C5: [inspect] returns on every Result, but
    [inspect(success(undefined))] and [inspect(failure(undefined))] are
    [null], not [undefined]. *)
Theorem inspect_undefined :
  inspect (success (Some VUndefined)) = ret VNull
  /\ inspect (failure (Some VUndefined)) = ret VNull
  /\ VNull <> VUndefined
  /\ (forall v, inspect (Success v) = ret v)
  /\ (forall e, inspect (Failure e) = ret e).
Proof. by repeat split. Qed.

(** ** Unwrapping *)

Section Unwrap.
Variable fn_body : fnref -> val -> completion val.

(** On a success the payload given to [success] is returned, unless it is
    [undefined], and nothing is called. *)
Lemma unwrap_success_defined (x : val) (callback : option val) :
  x <> VUndefined -> unwrap fn_body (success (Some x)) callback = ret x.
Proof. by destruct x. Qed.

(** C4: [unwrap(success(x), callback)] calls nothing, but at
    [x = undefined] it returns [null]. *)
Theorem unwrap_success_undefined (callback : option val) :
  unwrap fn_body (success (Some VUndefined)) callback = ret VNull
  /\ VNull <> VUndefined
  /\ (forall v, unwrap fn_body (Success v) callback = ret v).
Proof. by repeat split. Qed.

(** On a failure the callback is called once, with the error given to
    [failure], unless that is [undefined], and its outcome is that of
    [unwrap]. *)
Lemma unwrap_failure_defined (e : val) (f : fnref) :
  e <> VUndefined ->
  unwrap fn_body (failure (Some e)) (Some (VFun f)) = ([Call f e], fn_body f e).
Proof. by destruct e. Qed.

(** C3: [unwrap(failure(e), f)] calls [f] once, but at [e = undefined]
    the argument [f] gets is [null], and the outcome is that of
    [f(null)]. *)
Theorem unwrap_failure_undefined (f : fnref) :
  unwrap fn_body (failure (Some VUndefined)) (Some (VFun f))
    = ([Call f VNull], fn_body f VNull)
  /\ Call f VNull <> Call f VUndefined
  /\ (forall e, unwrap fn_body (Failure e) (Some (VFun f))
                = ([Call f e], fn_body f e)).
Proof. by repeat split. Qed.

(** C10: with no callback, [unwrap(failure(e))] returns [undefined]: it
    calls nothing and throws nothing. *)
Theorem unwrap_failure_no_callback (e : val) :
  unwrap fn_body (failure (Some e)) None = ret VUndefined.
Proof. by destruct e. Qed.

End Unwrap.

(** The outcomes of [f(null)] and [f(undefined)] differ for a callback
    that tells the two apart, here [e => e.length] on a string payload
    against the identity. *)
Example unwrap_scenario :
  unwrap sample_body (failure (Some (VStr "x"))) (Some (VFun 0))
    = ([Call 0 (VStr "x")], Normal (VNum 1))
  /\ unwrap sample_body (failure (Some VUndefined)) (Some (VFun 1))
    = ([Call 1 VNull], Normal VNull)
  /\ sample_body 1 VUndefined = Normal VUndefined.
Proof. by repeat split. Qed.

Example success_scenario :
  success (Some (VNum 42)) = Success (VNum 42)
  /\ inspect (success (Some (VNum 42))) = ret (VNum 42)
  /\ invert (success (Some (VNum 42))) = ret (Failure (VNum 42)).
Proof. by repeat split. Qed.

(** ** The two variants *)

(** The variants build the same records. *)
Lemma variant_constructors (x : option val) :
  Variant.success x = success x /\ Variant.failure x = failure x.
Proof. by split. Qed.

(** The two [from] agree when [data] is given. *)
Lemma from_variants_agree_given (test data : val) :
  Variant.from test (Some data) = from test (Some data).
Proof. unfold Variant.from, from. by destruct (to_boolean test), data. Qed.

(** C9: the two [from] agree when [data] is given, and when it is left
    out the payload is [null] in both: the [undefined] that the second
    variant passes on is replaced by the default of [success] and
    [failure]. *)
Theorem from_variants_omitted (b : bool) :
  Variant.from (VBool b) None = from (VBool b) None
  /\ inspect (Variant.from (VBool b) None) = ret VNull
  /\ inspect (from (VBool b) None) = ret VNull
  /\ (forall data, Variant.from (VBool b) (Some data) = from (VBool b) (Some data)).
Proof.
  repeat split; try by destruct b.
  intros data. apply from_variants_agree_given.
Qed.

(** * Further properties of the module *)

(** ** Shared facts *)

Lemma default_param_not_undefined (x : option val) :
  default_param x VNull <> VUndefined.
Proof. by destruct x as [[]|]. Qed.

Lemma default_param_idem (x : option val) :
  default_param (Some (default_param x VNull)) VNull = default_param x VNull.
Proof. by destruct x as [[]|]. Qed.

Lemma ret_inj {A : Type} (a b : A) : ret a = ret b -> a = b.
Proof. by intros [= ->]. Qed.

Lemma constructed_payload_defined (x : option val) :
  inspect (success x) <> ret VUndefined /\ inspect (failure x) <> ret VUndefined.
Proof.
  rewrite success_shape, failure_shape, inspect_Success, inspect_Failure.
  split; intros H%ret_inj; by apply default_param_not_undefined in H.
Qed.

Lemma get_cases (r : val) (k : string) :
  get r k = throw TypeError \/ exists v, get r k = ret v.
Proof. destruct r; simpl; eauto. Qed.


(** What [invert] can return: the record built by one of the
    constructors from a payload it read. *)
Lemma invert_inv (r r' : val) (t : list call) :
  invert r = (t, Normal r') ->
  t = [] /\ exists v, r' = failure (Some v) \/ r' = success (Some v).
Proof.
  unfold invert.
  destruct (get_cases r "ok") as [->|[ok ->]]; [done|].
  rewrite bind_ret_l. destruct (to_boolean ok).
  - destruct (get_cases r DataKey.Success) as [->|[v ->]]; [done|].
    rewrite bind_ret_l. intros [= <- <-]. eauto.
  - destruct (get_cases r DataKey.Failure) as [->|[v ->]]; [done|].
    rewrite bind_ret_l. intros [= <- <-]. eauto.
Qed.

Lemma invert_twice_constructed (x : option val) :
  (r <- invert (success x) ;; invert r) = ret (success x)
  /\ (r <- invert (failure x) ;; invert r) = ret (failure x).
Proof.
  rewrite success_shape, failure_shape, invert_Success, invert_Failure.
  rewrite !bind_ret_l, invert_Success, invert_Failure.
  by rewrite !default_param_idem.
Qed.

(** ** Payloads *)

(** X1: a payload other than [undefined] comes back as it was given:
    [inspect] reads it from [success(x)], [failure(x)] and [from(t, x)],
    and [unwrap] returns it from [success(x)] without calling anything. *)
Theorem payload_round_trip fn_body (x test : val) (callback : option val) :
  x <> VUndefined ->
  inspect (success (Some x)) = ret x
  /\ inspect (failure (Some x)) = ret x
  /\ inspect (from test (Some x)) = ret x
  /\ unwrap fn_body (success (Some x)) callback = ret x.
Proof.
  intros Hx. repeat split; try by destruct x.
  unfold from. destruct (to_boolean test); by destruct x.
Qed.

Lemma payload_round_trip_witness :
  VNum 42 <> VUndefined
  /\ inspect (success (Some (VNum 42))) = ret (VNum 42)
  /\ inspect (failure (Some (VNum 42))) = ret (VNum 42)
  /\ inspect (from (VBool false) (Some (VNum 42))) = ret (VNum 42)
  /\ unwrap sample_body (success (Some (VNum 42))) None = ret (VNum 42).
Proof.
  split; [discriminate|].
  apply (payload_round_trip sample_body (VNum 42) (VBool false) None).
  discriminate.
Defined.

(** X2: no record built by [success], [failure] or [from] has the payload
    [undefined], whatever the arguments, given or left out. *)
Theorem payload_never_undefined (x : option val) (test : val) :
  inspect (success x) <> ret VUndefined
  /\ inspect (failure x) <> ret VUndefined
  /\ inspect (from test x) <> ret VUndefined.
Proof.
  destruct (constructed_payload_defined x) as [Hs Hf]. repeat split; try done.
  unfold from. destruct (to_boolean test);
    apply (constructed_payload_defined (Some (default_param x VNull))).
Qed.

(** X3: [success(x)] and [failure(y)] are never the same record, and two
    calls of one constructor build the same record exactly when their
    payloads are the same once the default is applied. *)
Theorem constructors_distinct (x y : option val) :
  success x <> failure y
  /\ (success x = success y <-> default_param x VNull = default_param y VNull)
  /\ (failure x = failure y <-> default_param x VNull = default_param y VNull).
Proof.
  rewrite !success_shape, !failure_shape. repeat split.
  - apply Success_not_Failure.
  - apply Success_inj.
  - by intros ->.
  - apply Failure_inj.
  - by intros ->.
Qed.

(** X4: [from] looks at its test only through its truthiness, which
    becomes the [ok] field; the payload does not depend on the test. *)
Theorem from_by_truthiness (test : val) (data : option val) :
  from test data = from (VBool (to_boolean test)) data
  /\ get (from test data) "ok" = ret (VBool (to_boolean test))
  /\ inspect (from test data) = ret (default_param data VNull).
Proof.
  unfold from. simpl to_boolean.
  destruct (to_boolean test); repeat split;
    rewrite ?success_shape, ?failure_shape, ?default_param_idem; reflexivity.
Qed.

(** ** Inversion, on every input *)



(** X6: on a record that [invert] returned, inverting twice gives the
    record back. *)
Theorem invert_twice_on_output (r r' : val) (t : list call) :
  invert r = (t, Normal r') ->
  (r1 <- invert r' ;; invert r1) = ret r'.
Proof.
  intros (_ & v & [-> | ->])%invert_inv; apply invert_twice_constructed.
Qed.

Lemma invert_twice_on_output_witness :
  invert (Success VUndefined) = ([], Normal (Failure VNull))
  /\ (r1 <- invert (Failure VNull) ;; invert r1) = ret (Failure VNull).
Proof.
  split; [reflexivity|].
  apply (invert_twice_on_output (Success VUndefined) (Failure VNull) []).
  reflexivity.
Defined.

(** X7: on a Result, inverting twice gives the Result back exactly when
    its payload is not [undefined]. *)
Theorem invert_twice_iff (r : val) :
  Either r ->
  (r1 <- invert r ;; invert r1) = ret r <-> inspect r <> ret VUndefined.
Proof.
  intros Hr. split; [|by apply invert_invert_defined].
  destruct Hr as [v|e].
  - rewrite invert_Success, bind_ret_l, invert_Failure, inspect_Success.
    intros H%ret_inj%Success_inj ->%ret_inj. done.
  - rewrite invert_Failure, bind_ret_l, invert_Success, inspect_Failure.
    intros H%ret_inj%Failure_inj ->%ret_inj. done.
Qed.

Lemma invert_twice_iff_witness :
  Either (Failure (VStr "x"))
  /\ ((r1 <- invert (Failure (VStr "x")) ;; invert r1) = ret (Failure (VStr "x"))
      <-> inspect (Failure (VStr "x")) <> ret VUndefined).
Proof.
  split; [constructor|].
  apply (invert_twice_iff (Failure (VStr "x"))). constructor.
Defined.

(** X8: on a Result, [invert] flips the [ok] field, and [inspect] reads
    from the inverted Result what it reads from the original when that is
    not [undefined]. *)
Theorem invert_flips_tag (r : val) (b : bool) :
  Either r -> get r "ok" = ret (VBool b) ->
  (r' <- invert r ;; get r' "ok") = ret (VBool (negb b))
  /\ (inspect r <> ret VUndefined -> (r' <- invert r ;; inspect r') = inspect r).
Proof.
  intros [v|e] [= <-]; (split; [reflexivity|]).
  - rewrite inspect_Success, invert_Success, bind_ret_l, inspect_Failure.
    intros Hv. rewrite default_param_defined; [done|]. by intros ->.
  - rewrite inspect_Failure, invert_Failure, bind_ret_l, inspect_Success.
    intros He. rewrite default_param_defined; [done|]. by intros ->.
Qed.

Lemma invert_flips_tag_witness :
  Either (Success (VNum 42))
  /\ get (Success (VNum 42)) "ok" = ret (VBool true)
  /\ (r' <- invert (Success (VNum 42)) ;; get r' "ok") = ret (VBool (negb true))
  /\ (inspect (Success (VNum 42)) <> ret VUndefined ->
      (r' <- invert (Success (VNum 42)) ;; inspect r') = inspect (Success (VNum 42))).
Proof.
  split; [constructor|]. split; [reflexivity|].
  apply (invert_flips_tag (Success (VNum 42)) true); [constructor|reflexivity].
Defined.

(** ** Inputs that are not Results *)

(** X9: on [undefined] and on [null] the three readers throw a
    [TypeError], and [unwrap] does so before it calls anything. *)
Theorem nullish_result_throws fn_body (r : val) (callback : option val) :
  r = VUndefined \/ r = VNull ->
  inspect r = throw TypeError
  /\ invert r = throw TypeError
  /\ unwrap fn_body r callback = throw TypeError.
Proof. by intros [-> | ->]. Qed.

Lemma nullish_result_throws_witness :
  (VNull = VUndefined \/ VNull = VNull)
  /\ inspect VNull = throw TypeError
  /\ invert VNull = throw TypeError
  /\ unwrap sample_body VNull (Some (VFun 1)) = throw TypeError.
Proof.
  split; [by right|].
  apply (nullish_result_throws sample_body VNull (Some (VFun 1))). by right.
Defined.



(** ** Unwrapping, on every input *)

Section UnwrapMore.
Variable fn_body : fnref -> val -> completion val.


(** X12: on a failure built from an error other than [undefined], the
    callback is called once with that error, and [unwrap] ends as the
    call does: with the value it returns or with what it throws. *)
Theorem unwrap_fallback (e : val) (f : fnref) :
  e <> VUndefined ->
  unwrap fn_body (failure (Some e)) (Some (VFun f)) = ([Call f e], fn_body f e)
  /\ (forall x, fn_body f e = Abrupt x ->
      unwrap fn_body (failure (Some e)) (Some (VFun f)) = ([Call f e], Abrupt x)).
Proof.
  intros He.
  assert (H : unwrap fn_body (failure (Some e)) (Some (VFun f))
              = ([Call f e], fn_body f e)).
  { rewrite failure_shape, default_param_defined by done. apply unwrap_Failure. }
  split; [done|]. intros x Hx. by rewrite H, Hx.
Qed.

(** X13: on a failure, a callback given as [undefined] or [null] is
    skipped and [unwrap] returns [undefined]; any other callback that is
    not a function makes [unwrap] throw a [TypeError]. *)
Theorem unwrap_callback_not_callable (e c : val) :
  (forall f, c <> VFun f) ->
  unwrap fn_body (Failure e) (Some c)
  = match c with
    | VUndefined | VNull => ret VUndefined
    | _ => throw TypeError
    end.
Proof. intros Hc. destruct c; try reflexivity. by destruct (Hc f). Qed.

(** X14: with the identity as callback, [unwrap] returns on a Result what
    [inspect] reads from it. *)
Theorem unwrap_identity_inspect (r : val) (f : fnref) :
  (forall a, fn_body f a = Normal a) -> Either r ->
  (unwrap fn_body r (Some (VFun f))).2 = (inspect r).2.
Proof.
  intros Hf [v|e].
  - by rewrite unwrap_Success, inspect_Success.
  - by rewrite unwrap_Failure, inspect_Failure, Hf.
Qed.

(** X15: unwrapping an inverted success runs the callback on the payload
    of the success, and unwrapping an inverted failure returns the error
    without calling anything (payloads other than [undefined]). *)
Theorem unwrap_after_invert (x : val) (f : fnref) (callback : option val) :
  x <> VUndefined ->
  (r <- invert (success (Some x)) ;; unwrap fn_body r (Some (VFun f)))
    = ([Call f x], fn_body f x)
  /\ (r <- invert (failure (Some x)) ;; unwrap fn_body r callback) = ret x.
Proof.
  intros Hx.
  rewrite success_shape, failure_shape, invert_Success, invert_Failure.
  rewrite !bind_ret_l, default_param_idem, default_param_defined by done.
  by rewrite unwrap_Failure, unwrap_Success.
Qed.

(** ** The second variant *)

(** X16: the functions of the second variant other than [from] compute
    what those of the first compute, on every input, when [unwrap] is
    given a function as callback. *)
Theorem variants_agree (x : option val) (r : val) (f : fnref) :
  Variant.success x = success x
  /\ Variant.failure x = failure x
  /\ Variant.inspect r = inspect r
  /\ Variant.invert r = invert r
  /\ Variant.unwrap fn_body r (VFun f) = unwrap fn_body r (Some (VFun f)).
Proof. by repeat split. Qed.

(** X17: the second variant's [unwrap] ignores the callback on a success;
    on a failure, a callback that is not a function, [undefined]
    included, makes it throw a [TypeError] without calling anything. *)
Theorem variant_unwrap_callback (v e cb : val) :
  (forall f, cb <> VFun f) ->
  Variant.unwrap fn_body (Success v) cb = ret v
  /\ Variant.unwrap fn_body (Failure e) cb = throw TypeError.
Proof.
  intros Hcb. split; [reflexivity|].
  destruct cb; try reflexivity. by destruct (Hcb f).
Qed.

End UnwrapMore.

Lemma unwrap_fallback_witness :
  VNull <> VUndefined
  /\ unwrap sample_body (failure (Some VNull)) (Some (VFun 0))
     = ([Call 0 VNull], sample_body 0 VNull)
  /\ (forall x, sample_body 0 VNull = Abrupt x ->
      unwrap sample_body (failure (Some VNull)) (Some (VFun 0))
      = ([Call 0 VNull], Abrupt x)).
Proof.
  split; [discriminate|].
  apply (unwrap_fallback sample_body VNull 0). discriminate.
Defined.

Lemma unwrap_callback_not_callable_witness :
  (forall f, VNum 1 <> VFun f)
  /\ unwrap sample_body (Failure (VStr "x")) (Some (VNum 1)) = throw TypeError.
Proof.
  split; [discriminate|].
  apply (unwrap_callback_not_callable sample_body (VStr "x") (VNum 1)).
  discriminate.
Defined.

Lemma unwrap_identity_inspect_witness :
  (forall a, sample_body 1 a = Normal a)
  /\ Either (Failure (VStr "x"))
  /\ (unwrap sample_body (Failure (VStr "x")) (Some (VFun 1))).2
     = (inspect (Failure (VStr "x"))).2.
Proof.
  split; [reflexivity|]. split; [constructor|].
  apply (unwrap_identity_inspect sample_body (Failure (VStr "x")) 1);
    [reflexivity|constructor].
Defined.

Lemma unwrap_after_invert_witness :
  VNum 42 <> VUndefined
  /\ (r <- invert (success (Some (VNum 42))) ;;
      unwrap sample_body r (Some (VFun 1)))
     = ([Call 1 (VNum 42)], sample_body 1 (VNum 42))
  /\ (r <- invert (failure (Some (VNum 42))) ;; unwrap sample_body r None)
     = ret (VNum 42).
Proof.
  split; [discriminate|].
  apply (unwrap_after_invert sample_body (VNum 42) 1 None). discriminate.
Defined.

Lemma variant_unwrap_callback_witness :
  (forall f, VUndefined <> VFun f)
  /\ Variant.unwrap sample_body (Success (VNum 42)) VUndefined = ret (VNum 42)
  /\ Variant.unwrap sample_body (Failure (VStr "x")) VUndefined = throw TypeError.
Proof.
  split; [discriminate|].
  apply (variant_unwrap_callback sample_body (VNum 42) (VStr "x") VUndefined).
  discriminate.
Defined.
